(** * The cart slice and its synchronizer, embedded and verified

    A shallow embedding of [features/cart/cartSlice.js] (the reducers
    [replaceCart], [addItem], [removeItem]), of
    [features/cart/cartActions.js] (the thunks [fetchcartData] and
    [sendCartData]), of the sync effect of [App.js] and of the handlers of
    [components/Cart/CartItem.js].

    Numbers.  The source computes with JavaScript numbers.  Prices and
    total prices are binary64 doubles, modelled by the primitive [float]
    with its IEEE 754 [+], [-] and [*]: [+=] and [-=] round as in the
    source.  Quantities and [totalQuantity] are counts, on which [++] and
    [--] are exact below 2^53; they are modelled as [Z].

    Drafts.  The reducers are written against Immer drafts: the object
    returned by [state.items.find] is the array's own element, so that
    [existingItem.quantity++] updates the array in place.  [modify_found]
    models that aliasing. *)

From Stdlib Require Import ZArith List String Bool Lia.
From Stdlib Require Import PrimFloat FloatOps SpecFloat.
Import ListNotations.

Local Open Scope Z_scope.
Local Open Scope string_scope.

(** ** Data model *)

Record CartLine : Type := mkLine {
  id : string;
  price : float;
  quantity : Z;
  totalPrice : float;
  name : string
}.

Record CartState : Type := mkCart {
  items : list CartLine;
  totalQuantity : Z;
  changed : bool
}.

(** Payload of [addItem]: components pass [{id, title, price}]
    ([ProductItem]) or [{id, title, price, quantity}] ([CartItem]). *)
Record ItemPayload : Type := mkItem {
  item_id : string;
  item_title : string;
  item_price : float;
  item_quantity : option Z
}.

(** Payload of [replaceCart], also the body of the PUT request. *)
Record CartPayload : Type := mkPayload {
  payload_items : list CartLine;
  payload_totalQuantity : Z
}.

(** ** Array operations used by the slice *)

(** [arr.find(pred)] followed by a mutation [f] of the element found:
    the first element satisfying [pred] is updated where it stands. *)
Fixpoint modify_found {A : Type} (pred : A -> bool) (f : A -> A)
    (arr : list A) : list A :=
  match arr with
  | [] => []
  | x :: rest =>
      if pred x then f x :: rest else x :: modify_found pred f rest
  end.

(** [arr.push(x)]. *)
Definition push {A : Type} (arr : list A) (x : A) : list A := (arr ++ [x])%list.

(** [(i) => i.id === itemId] and its negation [(i) => i.id !== itemId]. *)
Definition id_is (itemId : string) (i : CartLine) : bool :=
  String.eqb (id i) itemId.

Definition id_is_not (itemId : string) (i : CartLine) : bool :=
  negb (String.eqb (id i) itemId).

Definition sum_quantity (arr : list CartLine) : Z :=
  fold_right (fun l acc => quantity l + acc) 0 arr.

(** ** The reducers of [cartSlice] *)

Module CartSlice.

Definition initialState : CartState :=
  {| items := []; totalQuantity := 0; changed := false |}.

Definition replaceCart (state : CartState) (payload : CartPayload)
    : CartState :=
  {| items := payload_items payload;
     totalQuantity := payload_totalQuantity payload;
     changed := changed state |}.

Definition addItem (state : CartState) (item : ItemPayload) : CartState :=
  let existingItem := find (id_is (item_id item)) (items state) in
  let totalQuantity' := totalQuantity state + 1 in
  match existingItem with
  | None =>
      {| items := push (items state)
                    {| id := item_id item;
                       price := item_price item;
                       quantity := 1;
                       totalPrice := item_price item;
                       name := item_title item |};
         totalQuantity := totalQuantity';
         changed := true |}
  | Some _ =>
      {| items := modify_found (id_is (item_id item))
                    (fun e => {| id := id e;
                                 price := price e;
                                 quantity := quantity e + 1;
                                 totalPrice :=
                                   (totalPrice e + item_price item)%float;
                                 name := name e |})
                    (items state);
         totalQuantity := totalQuantity';
         changed := true |}
  end.

Definition removeItem (state : CartState) (itemId : string) : CartState :=
  match find (id_is itemId) (items state) with
  | None => state
  | Some existingItem =>
      if (quantity existingItem =? 1)%Z then
        {| items := filter (id_is_not itemId) (items state);
           totalQuantity := totalQuantity state - 1;
           changed := true |}
      else
        {| items := modify_found (id_is itemId)
                      (fun e => {| id := id e;
                                   price := price e;
                                   quantity := quantity e - 1;
                                   totalPrice :=
                                     (totalPrice e - price e)%float;
                                   name := name e |})
                      (items state);
           totalQuantity := totalQuantity state - 1;
           changed := true |}
  end.

End CartSlice.

(** ** Actions and the cart part of the store *)

Inductive Status : Type := pending | success | error.

Record Notification : Type := mkNotification {
  status : Status;
  title : string;
  message : string
}.

Inductive Action : Type :=
| ReplaceCart (payload : CartPayload)
| AddItem (item : ItemPayload)
| RemoveItem (itemId : string)
| ShowNotification (n : Notification).

(** [cartSlice.reducer]: an action of another slice leaves the cart as it
    is. *)
Definition cartReducer (state : CartState) (a : Action) : CartState :=
  match a with
  | ReplaceCart payload => CartSlice.replaceCart state payload
  | AddItem item => CartSlice.addItem state item
  | RemoveItem itemId => CartSlice.removeItem state itemId
  | ShowNotification _ => state
  end.

Definition dispatch_all (state : CartState) (acts : list Action)
    : CartState :=
  fold_left cartReducer acts state.

(** The two actions a component dispatches on the cart. *)
Inductive CartEdit : Type :=
| EditAdd (item : ItemPayload)
| EditRemove (itemId : string).

Definition edit_action (e : CartEdit) : Action :=
  match e with
  | EditAdd item => AddItem item
  | EditRemove itemId => RemoveItem itemId
  end.

Definition apply_edits (state : CartState) (es : list CartEdit)
    : CartState :=
  dispatch_all state (map edit_action es).

(** ** Thunks: async functions that dispatch and await [fetch] *)

(** What a [throw] or a rejected promise carries; no handler of the source
    inspects it. *)
Inductive Exn : Type :=
| NetworkFailure
| ErrorMsg (msg : string)
| TypeError
| SyntaxError.

(** The parsed body of the GET response, for a store that holds what
    [sendCartData] writes: [null] when it holds nothing, otherwise an
    object with a numeric [totalQuantity] whose [items] may be absent.
    Bodies of other shapes (a bare number, string or boolean, an object
    without [totalQuantity]) are not modelled. *)
Inductive CartData : Type :=
| DataNull
| DataObject (data_items : option (list CartLine)) (data_totalQuantity : Z).

Record Response : Type := mkResponse {
  ok : bool;
  json : Exn + CartData
}.

Inductive Request : Type :=
| GET (url : string)
| PUT (url : string) (body : CartPayload).

(** An async function body: it returns, throws, dispatches an action and
    goes on, or awaits [fetch] and goes on with what the network gives. *)
Inductive Thunk (R : Type) : Type :=
| Return (r : R)
| Throw (e : Exn)
| DispatchThen (a : Action) (k : Thunk R)
| AwaitFetch (rq : Request) (k : Exn + Response -> Thunk R).

Arguments Return {R} r.
Arguments Throw {R} e.
Arguments DispatchThen {R} a k.
Arguments AwaitFetch {R} rq k.

Fixpoint bind {A B : Type} (t : Thunk A) (f : A -> Thunk B) : Thunk B :=
  match t with
  | Return r => f r
  | Throw e => Throw e
  | DispatchThen a k => DispatchThen a (bind k f)
  | AwaitFetch rq k => AwaitFetch rq (fun x => bind (k x) f)
  end.

(** [try { t } catch (error) { h error }]. *)
Fixpoint try_catch {A : Type} (t : Thunk A) (h : Exn -> Thunk A) : Thunk A :=
  match t with
  | Return r => Return r
  | Throw e => h e
  | DispatchThen a k => DispatchThen a (try_catch k h)
  | AwaitFetch rq k => AwaitFetch rq (fun x => try_catch (k x) h)
  end.

Definition dispatch (a : Action) : Thunk unit := DispatchThen a (Return tt).

(** [await fetch(rq)]: a rejected promise is rethrown at the [await]. *)
Definition fetch (rq : Request) : Thunk Response :=
  AwaitFetch rq (fun x =>
    match x with
    | inl e => Throw e
    | inr response => Return response
    end).

Notation "x <- t ;; k" := (bind t (fun x => k))
  (at level 61, t at next level, right associativity).
Notation "t ;;; k" := (bind t (fun _ => k))
  (at level 61, right associativity).

(** What an observer of a running thunk sees, in order. *)
Inductive Event : Type :=
| Dispatched (a : Action)
| Requested (rq : Request).

(** Runs a thunk against a network that answers each request. *)
Fixpoint run {R : Type} (net : Request -> Exn + Response) (t : Thunk R)
    : list Event * (Exn + R) :=
  match t with
  | Return r => ([], inr r)
  | Throw e => ([], inl e)
  | DispatchThen a k =>
      let (tr, res) := run net k in (Dispatched a :: tr, res)
  | AwaitFetch rq k =>
      let (tr, res) := run net (k (net rq)) in (Requested rq :: tr, res)
  end.

Definition trace {R : Type} (net : Request -> Exn + Response) (t : Thunk R)
    : list Event :=
  fst (run net t).

Fixpoint dispatched_of (tr : list Event) : list Action :=
  match tr with
  | [] => []
  | Dispatched a :: rest => a :: dispatched_of rest
  | Requested _ :: rest => dispatched_of rest
  end.

Fixpoint requests_of (tr : list Event) : list Request :=
  match tr with
  | [] => []
  | Dispatched _ :: rest => requests_of rest
  | Requested rq :: rest => rq :: requests_of rest
  end.

Definition is_notification (a : Action) : bool :=
  match a with
  | ShowNotification _ => true
  | _ => false
  end.

Definition is_cart_action (a : Action) : bool := negb (is_notification a).

(** ** [cartActions.js] *)

Module CartActions.

Definition cart_url : string :=
  "https://redux-academind-default-rtdb.asia-southeast1.firebasedatabase.app/cart.json".

Definition fetch_failed : Notification :=
  {| status := error;
     title := "Error!⚠️";
     message := "Fetching cart data failed❌⚠️" |}.

Definition sending : Notification :=
  {| status := pending;
     title := "Sending request.. ⏳";
     message := "Sending cart data! 🛒⌛" |}.

Definition sent : Notification :=
  {| status := success;
     title := "Success! 🎉";
     message := "Cart data sent successfully ✅🛒" |}.

Definition send_failed : Notification :=
  {| status := error;
     title := "Error!⚠️";
     message := "Sending cart data failed❌⚠️" |}.

(** The inner [fetchData] of [fetchcartData]. *)
Definition fetchData : Thunk CartData :=
  response <- fetch (GET cart_url) ;;
  if negb (ok response) then Throw (ErrorMsg "Error fetching cart⚠️🛒")
  else
    match json response with
    | inl e => Throw e
    | inr data => Return data
    end.

(** [cartData.items || []]. *)
Definition items_or_empty (data_items : option (list CartLine))
    : list CartLine :=
  match data_items with
  | Some arr => arr
  | None => []
  end.

Definition fetchcartData : Thunk unit :=
  try_catch
    (cartData <- fetchData ;;
     match cartData with
     | DataNull => Throw TypeError
     | DataObject data_items data_totalQuantity =>
         dispatch (ReplaceCart
                     {| payload_items := items_or_empty data_items;
                        payload_totalQuantity := data_totalQuantity |})
     end)
    (fun _ => dispatch (ShowNotification fetch_failed)).

(** The inner [sendRequest] of [sendCartData]. *)
Definition sendRequest (cart : CartState) : Thunk unit :=
  response <- fetch (PUT cart_url
                       {| payload_items := items cart;
                          payload_totalQuantity := totalQuantity cart |}) ;;
  if negb (ok response) then Throw (ErrorMsg "Sending cart data failed ⚠️")
  else Return tt.

Definition sendCartData (cart : CartState) : Thunk unit :=
  dispatch (ShowNotification sending) ;;;
  try_catch
    (sendRequest cart ;;; dispatch (ShowNotification sent))
    (fun _ => dispatch (ShowNotification send_failed)).

End CartActions.

(** ** The sync effect of [App] *)

Module App.

(** The second [useEffect]: runs with the current cart after a render in
    which [cart] changed; [isInitial] is the module-level flag.  Gives the
    new flag and the thunk dispatched, if any. *)
Definition syncEffect (isInitial : bool) (cart : CartState)
    : bool * option (Thunk unit) :=
  if isInitial then (false, None)
  else if changed cart then (false, Some (CartActions.sendCartData cart))
  else (false, None).

End App.

(** The outcome of the remote call, as the spec names it: the write (or
    read) succeeded when [fetch] resolved with an [ok] response. *)
Definition call_succeeded (answer : Exn + Response) : bool :=
  match answer with
  | inl _ => false
  | inr response => ok response
  end.

(** An action changes the cart locally when it is an [addItem], or a
    [removeItem] of an id the cart holds. *)
Definition mutates (state : CartState) (a : Action) : bool :=
  match a with
  | AddItem _ => true
  | RemoveItem itemId =>
      match find (id_is itemId) (items state) with
      | Some _ => true
      | None => false
      end
  | _ => false
  end.

(** The double nearest to an integer: a count, where it meets a price. *)
Definition number_of_Z (n : Z) : float :=
  SF2Prim (binary_normalize prec emax n 0 false).

(** [totalPrice == price * quantity], with the [==] and the [*] of
    doubles. *)
Definition line_consistent (l : CartLine) : Prop :=
  PrimFloat.eqb (totalPrice l)
    (price l * number_of_Z (quantity l))%float = true.

(** A line with another [totalPrice], all else as it is. *)
Definition with_totalPrice (l : CartLine) (total : float) : CartLine :=
  {| id := id l; price := price l; quantity := quantity l;
     totalPrice := total; name := name l |}.

(** ** The invariant of carts built by [addItem] and [removeItem] *)

Record well_formed (state : CartState) : Prop := {
  wf_unique : NoDup (map id (items state));
  wf_positive : Forall (fun l => 1 <= quantity l) (items state);
  wf_total : totalQuantity state = sum_quantity (items state)
}.

(** Whether some action of [acts], dispatched in order from [state],
    changes the cart locally. *)
Fixpoint ever_mutates (state : CartState) (acts : list Action) : bool :=
  match acts with
  | [] => false
  | a :: rest => mutates state a || ever_mutates (cartReducer state a) rest
  end.

(** The catalogue of [Products.js], as payloads and as cart lines. *)
Definition product1 : ItemPayload :=
  {| item_id := "p1"; item_title := "Product 1"; item_price := 6%float;
     item_quantity := None |}.

Definition product2 : ItemPayload :=
  {| item_id := "p2"; item_title := "Product 2"; item_price := 10%float;
     item_quantity := None |}.

Definition product1_line : CartLine :=
  {| id := "p1"; price := 6%float; quantity := 1; totalPrice := 6%float;
     name := "Product 1" |}.

Definition cart_with_product1 : CartState :=
  {| items := [product1_line]; totalQuantity := 1; changed := true |}.

(** ** [CartItem.js] *)

Module CartItem.

(** [props.item], as the component destructures it. *)
Record Props : Type := mkProps {
  prop_title : string;
  prop_quantity : Z;
  prop_total : float;
  prop_price : float;
  prop_id : string
}.

Definition addItemHandler (props : Props) : Action :=
  AddItem {| item_id := prop_id props;
             item_title := prop_title props;
             item_price := prop_price props;
             item_quantity := Some (prop_quantity props) |}.

Definition removeItemHandler (props : Props) : Action :=
  RemoveItem (prop_id props).

End CartItem.


(** How many [addItem] actions a sequence of edits holds. *)
Fixpoint count_adds (es : list CartEdit) : Z :=
  match es with
  | [] => 0
  | EditAdd _ :: rest => 1 + count_adds rest
  | EditRemove _ :: rest => count_adds rest
  end.


Definition product2_line : CartLine :=
  {| id := "p2"; price := 10%float; quantity := 2; totalPrice := 20%float;
     name := "Product 2" |}.

Definition cart_with_both : CartState :=
  {| items := [product1_line; product2_line]; totalQuantity := 3;
     changed := true |}.

(** The props of the cart items that show the two lines of
    [cart_with_both]. *)
Definition product1_props : CartItem.Props :=
  {| CartItem.prop_title := "Product 1"; CartItem.prop_quantity := 1;
     CartItem.prop_total := 6%float; CartItem.prop_price := 6%float;
     CartItem.prop_id := "p1" |}.

Definition product2_props : CartItem.Props :=
  {| CartItem.prop_title := "Product 2"; CartItem.prop_quantity := 2;
     CartItem.prop_total := 20%float; CartItem.prop_price := 10%float;
     CartItem.prop_id := "p2" |}.

(** A product at 0.1 (the double 0x1.999999999999ap-4), not of the
    catalogue. *)
Definition tenth : ItemPayload :=
  {| item_id := "p3"; item_title := "Product 3";
     item_price := 0x1.999999999999ap-4%float; item_quantity := None |}.

(** The cart after five [addItem] of it: one line, price 0.1, quantity 5,
    totalPrice 0.5. *)
Definition cart_with_five_tenths : CartState :=
  apply_edits CartSlice.initialState
    [EditAdd tenth; EditAdd tenth; EditAdd tenth; EditAdd tenth;
     EditAdd tenth].

(** The cart after two [addItem] of it: one line, price 0.1, quantity 2,
    totalPrice 0.2, and the props of the cart item that shows it. *)
Definition two_tenths_line : CartLine :=
  {| id := "p3"; price := 0x1.999999999999ap-4; quantity := 2;
     totalPrice := 0x1.999999999999ap-3; name := "Product 3" |}.

Definition cart_with_two_tenths : CartState :=
  apply_edits CartSlice.initialState [EditAdd tenth; EditAdd tenth].

Definition tenth_props : CartItem.Props :=
  {| CartItem.prop_title := "Product 3"; CartItem.prop_quantity := 2;
     CartItem.prop_total := 0x1.999999999999ap-3%float;
     CartItem.prop_price := 0x1.999999999999ap-4%float;
     CartItem.prop_id := "p3" |}.

(** A consistent cart as [replaceCart] may install it: one line, price
    0.03, quantity 10, totalPrice 0.3, and the props that show it. *)
Definition three_hundredths_line : CartLine :=
  {| id := "p4"; price := 0x1.eb851eb851eb8p-6; quantity := 10;
     totalPrice := 0x1.3333333333333p-2; name := "Product 4" |}.

Definition cart_with_three_hundredths : CartState :=
  {| items := [three_hundredths_line]; totalQuantity := 10;
     changed := false |}.

Definition three_hundredths_props : CartItem.Props :=
  {| CartItem.prop_title := "Product 4"; CartItem.prop_quantity := 10;
     CartItem.prop_total := 0x1.3333333333333p-2%float;
     CartItem.prop_price := 0x1.eb851eb851eb8p-6%float;
     CartItem.prop_id := "p4" |}.

(** * Properties *)

(** ** Facts about the array operations *)

Section ArrayFacts.

Context {A : Type}.
Variable pred : A -> bool.

Lemma find_splits (arr : list A) (e : A) :
  find pred arr = Some e ->
  exists before after,
    arr = (before ++ e :: after)%list /\
    Forall (fun x => pred x = false) before /\
    pred e = true.
Proof.
  induction arr as [|x rest IH]; simpl; [discriminate|].
  destruct (pred x) eqn:Hx.
  - intros [= ->]. exists [], rest. auto.
  - intros H. destruct (IH H) as (before & after & -> & Hb & He).
    exists (x :: before), after. auto.
Qed.

Lemma find_skips (before after : list A) (e : A) :
  Forall (fun x => pred x = false) before ->
  pred e = true ->
  find pred (before ++ e :: after) = Some e.
Proof.
  induction 1 as [|x before Hx _ IH]; simpl; intros He.
  - now rewrite He.
  - rewrite Hx. auto.
Qed.

Lemma find_misses (arr : list A) :
  Forall (fun x => pred x = false) arr -> find pred arr = None.
Proof.
  induction 1 as [|x rest Hx _ IH]; simpl; [reflexivity|].
  now rewrite Hx.
Qed.

Lemma find_none_all (arr : list A) :
  find pred arr = None -> Forall (fun x => pred x = false) arr.
Proof.
  intros H. apply Forall_forall. intros x Hin.
  exact (find_none pred arr H x Hin).
Qed.

Lemma modify_found_at (f : A -> A) (before after : list A) (e : A) :
  Forall (fun x => pred x = false) before ->
  pred e = true ->
  modify_found pred f (before ++ e :: after) =
  (before ++ f e :: after)%list.
Proof.
  induction 1 as [|x before Hx _ IH]; simpl; intros He.
  - now rewrite He.
  - rewrite Hx. now rewrite IH.
Qed.

Lemma filter_keeps (arr : list A) :
  Forall (fun x => pred x = true) arr -> filter pred arr = arr.
Proof.
  induction 1 as [|x rest Hx _ IH]; simpl; [reflexivity|].
  now rewrite Hx, IH.
Qed.

End ArrayFacts.

Lemma NoDup_snoc {A : Type} (arr : list A) (x : A) :
  NoDup arr -> ~ In x arr -> NoDup (arr ++ [x]).
Proof.
  induction 1 as [|y rest Hy _ IH]; simpl; intros Hx.
  - constructor; [tauto | constructor].
  - constructor.
    + rewrite in_app_iff. simpl. intros [H | [H | []]]; [tauto | subst; tauto].
    + apply IH. tauto.
Qed.

Lemma id_is_true (x : string) (l : CartLine) : id_is x l = true <-> id l = x.
Proof. unfold id_is. apply String.eqb_eq. Qed.

Lemma id_is_false (x : string) (l : CartLine) :
  id_is x l = false <-> id l <> x.
Proof. unfold id_is. apply String.eqb_neq. Qed.

Lemma id_is_not_true (x : string) (l : CartLine) :
  id_is_not x l = true <-> id_is x l = false.
Proof. unfold id_is_not, id_is. apply negb_true_iff. Qed.

Lemma absent_not_in (x : string) (arr : list CartLine) :
  Forall (fun l => id_is x l = false) arr <-> ~ In x (map id arr).
Proof.
  induction arr as [|l rest IH]; simpl.
  - split; [tauto | constructor].
  - split.
    + intros H. inversion H as [|? ? Hl Hrest]; subst.
      apply id_is_false in Hl. apply IH in Hrest. tauto.
    + intros H. constructor.
      * apply id_is_false. tauto.
      * apply IH. tauto.
Qed.

Lemma sum_quantity_app (a b : list CartLine) :
  sum_quantity (a ++ b) = sum_quantity a + sum_quantity b.
Proof.
  induction a as [|l a IH]; simpl; [reflexivity|].
  unfold sum_quantity in *. simpl. rewrite IH. lia.
Qed.

Lemma sum_quantity_cons (l : CartLine) (a : list CartLine) :
  sum_quantity (l :: a) = quantity l + sum_quantity a.
Proof. reflexivity. Qed.

Lemma sum_quantity_nonneg (arr : list CartLine) :
  Forall (fun l => 1 <= quantity l) arr -> 0 <= sum_quantity arr.
Proof.
  induction 1 as [|l rest Hl _ IH]; [cbn; lia|].
  rewrite sum_quantity_cons. lia.
Qed.

(** ** The invariant is kept by every edit *)

Lemma initialState_well_formed : well_formed CartSlice.initialState.
Proof. split; simpl; constructor. Qed.

Lemma addItem_well_formed (state : CartState) (item : ItemPayload) :
  well_formed state -> well_formed (CartSlice.addItem state item).
Proof.
  intros [Hu Hp Ht]. unfold CartSlice.addItem.
  destruct (find _ (items state)) as [e|] eqn:Hf.
  - destruct (find_splits _ _ _ Hf) as (before & after & Hs & Hb & He).
    rewrite Hs in *. rewrite (modify_found_at _ _ _ _ _ Hb He).
    split; simpl.
    + rewrite map_app in *. exact Hu.
    + apply Forall_app in Hp. destruct Hp as [Hp1 Hp2].
      inversion Hp2; subst. apply Forall_app. split; [assumption|].
      constructor; simpl; [lia | assumption].
    + rewrite Ht, !sum_quantity_app, !sum_quantity_cons. simpl. lia.
  - apply find_none_all in Hf. split; simpl; unfold push.
    + rewrite map_app. simpl.
      apply absent_not_in in Hf.
      apply NoDup_snoc; assumption.
    + apply Forall_app. split; [assumption|]. constructor; simpl; [lia|constructor].
    + rewrite sum_quantity_app, Ht. cbn. lia.
Qed.

(** In a cart with unique ids, the line found is the only one of its id:
    what [filter] drops is that line alone. *)
Lemma filter_drops_found (x : string) (before after : list CartLine)
    (e : CartLine) :
  NoDup (map id (before ++ e :: after)) ->
  Forall (fun l => id_is x l = false) before ->
  id_is x e = true ->
  filter (id_is_not x) (before ++ e :: after) = (before ++ after)%list.
Proof.
  intros Hu Hb He.
  rewrite filter_app. simpl.
  assert (Hne : id_is_not x e = false).
  { unfold id_is_not. fold (id_is x e). now rewrite He. }
  rewrite Hne.
  rewrite filter_keeps.
  2:{ eapply Forall_impl; [|exact Hb]. intros l. apply id_is_not_true. }
  rewrite filter_keeps; [reflexivity|].
  rewrite map_app in Hu. simpl in Hu.
  apply NoDup_remove_2 in Hu.
  apply id_is_true in He. subst x.
  apply Forall_forall. intros l Hl.
  apply id_is_not_true, id_is_false. intros Heq.
  apply Hu, in_or_app. right. rewrite <- Heq. now apply in_map.
Qed.

Lemma removeItem_well_formed (state : CartState) (itemId : string) :
  well_formed state -> well_formed (CartSlice.removeItem state itemId).
Proof.
  intros [Hu Hp Ht]. unfold CartSlice.removeItem.
  destruct (find _ (items state)) as [e|] eqn:Hf; [|now split].
  destruct (find_splits _ _ _ Hf) as (before & after & Hs & Hb & He).
  rewrite Hs in *.
  apply Forall_app in Hp. destruct Hp as [Hp1 Hp2].
  inversion Hp2 as [|? ? Hq Hp3]; subst.
  destruct (Z.eqb_spec (quantity e) 1) as [Hone|Hmore].
  - rewrite (filter_drops_found _ _ _ _ Hu Hb He).
    split; simpl.
    + rewrite map_app in *. simpl in Hu.
      now apply NoDup_remove_1 in Hu.
    + apply Forall_app. now split.
    + rewrite Ht, !sum_quantity_app, sum_quantity_cons. lia.
  - rewrite (modify_found_at _ _ _ _ _ Hb He).
    split; simpl.
    + rewrite map_app in *. exact Hu.
    + apply Forall_app. split; [assumption|].
      constructor; simpl; [lia | assumption].
    + rewrite Ht, !sum_quantity_app, !sum_quantity_cons. simpl. lia.
Qed.

Lemma apply_edits_snoc (state : CartState) (es : list CartEdit)
    (e : CartEdit) :
  apply_edits state (es ++ [e]) =
  cartReducer (apply_edits state es) (edit_action e).
Proof.
  unfold apply_edits, dispatch_all.
  now rewrite map_app, fold_left_app.
Qed.

Lemma apply_edits_well_formed (es : list CartEdit) :
  well_formed (apply_edits CartSlice.initialState es).
Proof.
  induction es as [|e es IH] using rev_ind.
  - exact initialState_well_formed.
  - rewrite apply_edits_snoc. destruct e; simpl.
    + now apply addItem_well_formed.
    + now apply removeItem_well_formed.
Qed.

(** C1: after any sequence of [addItem]/[removeItem] actions from the
    initial cart, [totalQuantity] is the sum of the lines' quantities, and
    neither a line's quantity nor [totalQuantity] is negative. *)
Theorem total_is_sum_and_nothing_negative (es : list CartEdit) :
  let state := apply_edits CartSlice.initialState es in
  totalQuantity state = sum_quantity (items state) /\
  Forall (fun l => 0 <= quantity l) (items state) /\
  0 <= totalQuantity state.
Proof.
  destruct (apply_edits_well_formed es) as [_ Hp Ht].
  cbv zeta. split; [exact Ht|]. split.
  - eapply Forall_impl; [|exact Hp]. simpl. intros; lia.
  - rewrite Ht. now apply sum_quantity_nonneg.
Qed.

(** ** Per-line consistency: [totalPrice = price * quantity] *)


(** The same with the stored price, once it is fractional: five
    [addItem] at 0.1 give a consistent line of totalPrice 0.5; the sixth,
    at the stored price, gives 0.5 + 0.1, which is not 0.1 * 6. *)
Lemma repeat_add_with_stored_price_is_inconsistent :
  Forall line_consistent (items cart_with_five_tenths) /\
  (exists e,
     find (id_is (item_id tenth)) (items cart_with_five_tenths) = Some e /\
     item_price tenth = price e) /\
  ~ Forall line_consistent
      (items (CartSlice.addItem cart_with_five_tenths tenth)).
Proof.
  split; [|split].
  - repeat constructor.
  - eexists. split; reflexivity.
  - intros H. inversion H as [|? ? Hl _]; subst.
    vm_compute in Hl. discriminate.
Qed.



(** ** What each reducer does *)

(** C4: [addItem] adds 1 to [totalQuantity] and sets [changed]; with no
    line of the payload's id it appends the line
    [{id, name: title, price, quantity: 1, totalPrice: price}]; with a line
    of that id, the first such line has its quantity raised by 1 (and its
    [totalPrice] by the payload's price); from the empty cart, adding
    product "p1" gives the cart of the scenario. *)
Theorem addItem_effect (state : CartState) (item : ItemPayload) :
  let state' := CartSlice.addItem state item in
  totalQuantity state' = totalQuantity state + 1 /\
  changed state' = true /\
  ((forall l, In l (items state) -> id l <> item_id item) ->
   items state' =
     (items state ++
      [{| id := item_id item; price := item_price item; quantity := 1;
          totalPrice := item_price item; name := item_title item |}])%list) /\
  (forall before e after,
     items state = (before ++ e :: after)%list ->
     (forall l, In l before -> id l <> item_id item) ->
     id e = item_id item ->
     items state' =
       (before ++ {| id := id e; price := price e;
                     quantity := quantity e + 1;
                     totalPrice := totalPrice e + item_price item;
                     name := name e |} :: after)%list) /\
  CartSlice.addItem CartSlice.initialState
    {| item_id := "p1"; item_title := "Product 1"; item_price := 6;
       item_quantity := None |} =
  {| items := [{| id := "p1"; price := 6; quantity := 1; totalPrice := 6;
                  name := "Product 1" |}];
     totalQuantity := 1; changed := true |}.
Proof.
  cbv zeta. repeat split.
  - unfold CartSlice.addItem. now destruct (find _ _).
  - unfold CartSlice.addItem. now destruct (find _ _).
  - intros Hnone. unfold CartSlice.addItem.
    rewrite find_misses; [reflexivity|].
    apply Forall_forall. intros l Hl. apply id_is_false. now apply Hnone.
  - intros before e after Hs Hb He. unfold CartSlice.addItem.
    assert (Hb' : Forall (fun l => id_is (item_id item) l = false) before).
    { apply Forall_forall. intros l Hl. apply id_is_false. now apply Hb. }
    apply id_is_true in He.
    rewrite Hs, (find_skips _ _ _ _ Hb' He). simpl.
    now rewrite (modify_found_at _ _ _ _ _ Hb' He).
Qed.

(** C5: [removeItem] of an id that no line has gives back the state it
    was given. *)
Theorem removeItem_absent_is_noop (state : CartState) (itemId : string)
    (Habsent : forall l, In l (items state) -> id l <> itemId) :
  CartSlice.removeItem state itemId = state.
Proof.
  unfold CartSlice.removeItem.
  rewrite find_misses; [reflexivity|].
  apply Forall_forall. intros l Hl. apply id_is_false. now apply Habsent.
Qed.

Lemma removeItem_absent_is_noop_witness :
  (forall l, In l (items cart_with_product1) -> id l <> "p2") /\
  CartSlice.removeItem cart_with_product1 "p2" = cart_with_product1.
Proof.
  assert (H : forall l, In l (items cart_with_product1) -> id l <> "p2").
  { intros l [<-|[]]. discriminate. }
  split; [exact H|].
  exact (removeItem_absent_is_noop cart_with_product1 "p2" H).
Defined.

(** C6: [replaceCart] installs the payload's [items] and [totalQuantity]
    whatever the prior state was, and leaves [changed] as it was. *)
Theorem replaceCart_overwrites_and_keeps_changed
    (state other : CartState) (payload : CartPayload) :
  items (CartSlice.replaceCart state payload) = payload_items payload /\
  totalQuantity (CartSlice.replaceCart state payload)
    = payload_totalQuantity payload /\
  changed (CartSlice.replaceCart state payload) = changed state /\
  items (CartSlice.replaceCart other payload)
    = items (CartSlice.replaceCart state payload) /\
  totalQuantity (CartSlice.replaceCart other payload)
    = totalQuantity (CartSlice.replaceCart state payload).
Proof. repeat split. Qed.

(** C7: in a state with no line of id [x], [addItem] of [x] followed by
    [removeItem] of [x] gives back the former [items] and the former
    [totalQuantity]. *)
Theorem add_then_remove_restores (state : CartState) (item : ItemPayload)
    (Hfresh : forall l, In l (items state) -> id l <> item_id item) :
  let state' :=
    CartSlice.removeItem (CartSlice.addItem state item) (item_id item) in
  items state' = items state /\ totalQuantity state' = totalQuantity state.
Proof.
  assert (Hb : Forall (fun l => id_is (item_id item) l = false) (items state)).
  { apply Forall_forall. intros l Hl. apply id_is_false. now apply Hfresh. }
  cbv zeta. unfold CartSlice.addItem.
  rewrite (find_misses _ _ Hb). unfold CartSlice.removeItem, push. simpl.
  rewrite find_skips; [|exact Hb|apply id_is_true; reflexivity].
  simpl. split; [|lia].
  rewrite filter_app. simpl.
  unfold id_is_not at 2. simpl. rewrite String.eqb_refl. simpl.
  rewrite app_nil_r. apply filter_keeps.
  eapply Forall_impl; [|exact Hb]. intros l. apply id_is_not_true.
Qed.

Lemma add_then_remove_restores_witness :
  (forall l, In l (items cart_with_product1) -> id l <> item_id product2) /\
  items (CartSlice.removeItem
           (CartSlice.addItem cart_with_product1 product2)
           (item_id product2)) = items cart_with_product1 /\
  totalQuantity (CartSlice.removeItem
                   (CartSlice.addItem cart_with_product1 product2)
                   (item_id product2)) = totalQuantity cart_with_product1.
Proof.
  assert (H : forall l, In l (items cart_with_product1) ->
                        id l <> item_id product2).
  { intros l [<-|[]]. discriminate. }
  split; [exact H|].
  exact (add_then_remove_restores cart_with_product1 product2 H).
Defined.

Lemma sum_quantity_addItem (state : CartState) (item : ItemPayload) :
  sum_quantity (items (CartSlice.addItem state item)) =
  sum_quantity (items state) + 1.
Proof.
  unfold CartSlice.addItem.
  destruct (find _ (items state)) as [e|] eqn:Hf; simpl.
  - destruct (find_splits _ _ _ Hf) as (before & after & Hs & Hb & He).
    rewrite Hs, (modify_found_at _ _ _ _ _ Hb He).
    rewrite !sum_quantity_app, !sum_quantity_cons. simpl. lia.
  - unfold push. rewrite sum_quantity_app. cbn. lia.
Qed.

(** C10: the [quantity] field of an [addItem] payload is never read: two
    payloads with the same id, title and price give the same state,
    whatever quantity each carries, if any; and whatever that quantity is,
    [addItem] adds exactly 1 to [totalQuantity] and exactly 1 to the sum
    of the lines' quantities. *)
Theorem addItem_ignores_payload_quantity
    (state : CartState) (itemId itemTitle : string) (itemPrice : float)
    (q1 q2 : option Z) :
  let item1 := {| item_id := itemId; item_title := itemTitle;
                  item_price := itemPrice; item_quantity := q1 |} in
  let item2 := {| item_id := itemId; item_title := itemTitle;
                  item_price := itemPrice; item_quantity := q2 |} in
  CartSlice.addItem state item1 = CartSlice.addItem state item2 /\
  totalQuantity (CartSlice.addItem state item1) = totalQuantity state + 1 /\
  sum_quantity (items (CartSlice.addItem state item1)) =
    sum_quantity (items state) + 1.
Proof.
  cbv zeta. split; [reflexivity|]. split.
  - unfold CartSlice.addItem. now destruct (find _ _).
  - apply sum_quantity_addItem.
Qed.

(** ** The dirty flag *)

Lemma changed_after (state : CartState) (a : Action) :
  changed (cartReducer state a) = changed state || mutates state a.
Proof.
  destruct a as [payload|item|itemId|n]; simpl.
  - now rewrite orb_false_r.
  - unfold CartSlice.addItem.
    destruct (find _ _); simpl; now rewrite orb_true_r.
  - unfold CartSlice.removeItem.
    destruct (find _ _) as [e|]; [|now rewrite orb_false_r].
    destruct (quantity e =? 1)%Z; simpl; now rewrite orb_true_r.
  - now rewrite orb_false_r.
Qed.

Lemma changed_after_all (acts : list Action) (state : CartState) :
  changed (dispatch_all state acts) = changed state || ever_mutates state acts.
Proof.
  revert state. induction acts as [|a rest IH]; intros state; simpl.
  - now rewrite orb_false_r.
  - unfold dispatch_all in *. simpl.
    now rewrite IH, changed_after, orb_assoc.
Qed.

Lemma ever_mutates_somewhere (acts : list Action) (state : CartState) :
  ever_mutates state acts = true <->
  exists before a after,
    acts = (before ++ a :: after)%list /\
    mutates (dispatch_all state before) a = true.
Proof.
  revert state. induction acts as [|a rest IH]; intros state; simpl.
  - split; [discriminate|].
    intros (before & b & after & Heq & _). now destruct before.
  - rewrite orb_true_iff, IH. split.
    + intros [Hm | (before & b & after & -> & Hm)].
      * now exists [], a, rest.
      * now exists (a :: before), b, after.
    + intros (before & b & after & Heq & Hm).
      destruct before as [|a' before]; simpl in Heq;
        injection Heq as -> ->.
      * now left.
      * right. now exists before, b, after.
Qed.

(** The thunks, run against any network. *)
Lemma fetchcartData_trace (net : Request -> Exn + Response) :
  trace net CartActions.fetchcartData =
  Requested (GET CartActions.cart_url) ::
  match net (GET CartActions.cart_url) with
  | inl _ => [Dispatched (ShowNotification CartActions.fetch_failed)]
  | inr response =>
      if ok response then
        match json response with
        | inr (DataObject data_items data_totalQuantity) =>
            [Dispatched
               (ReplaceCart
                  {| payload_items := CartActions.items_or_empty data_items;
                     payload_totalQuantity := data_totalQuantity |})]
        | _ => [Dispatched (ShowNotification CartActions.fetch_failed)]
        end
      else [Dispatched (ShowNotification CartActions.fetch_failed)]
  end.
Proof.
  unfold trace. simpl.
  destruct (net _) as [e|[[] [e|[|data_items data_totalQuantity]]]];
    reflexivity.
Qed.

Lemma sendCartData_trace (net : Request -> Exn + Response)
    (cart : CartState) :
  let rq := PUT CartActions.cart_url
              {| payload_items := items cart;
                 payload_totalQuantity := totalQuantity cart |} in
  trace net (CartActions.sendCartData cart) =
  [Dispatched (ShowNotification CartActions.sending);
   Requested rq;
   Dispatched (ShowNotification
                 (if call_succeeded (net rq) then CartActions.sent
                  else CartActions.send_failed))].
Proof.
  unfold trace. simpl.
  destruct (net _) as [e|[[] body]]; reflexivity.
Qed.

(** C3, refuted as stated: after [addItem] the sync effect sends the cart;
    the write succeeds, and [changed] is still true once every action of
    the thunk has been dispatched. *)
Lemma changed_stays_set_after_successful_send :
  let cart := CartSlice.addItem CartSlice.initialState product1 in
  let rq := PUT CartActions.cart_url
              {| payload_items := items cart;
                 payload_totalQuantity := totalQuantity cart |} in
  let net := fun _ : Request =>
    inr {| ok := true;
           json := inr (DataObject (Some (items cart))
                          (totalQuantity cart)) |} in
  let tr := trace net (CartActions.sendCartData cart) in
  snd (App.syncEffect false cart) = Some (CartActions.sendCartData cart) /\
  requests_of tr = [rq] /\
  call_succeeded (net rq) = true /\
  dispatched_of tr = [ShowNotification CartActions.sending;
                      ShowNotification CartActions.sent] /\
  changed (dispatch_all cart (dispatched_of tr)) <> false.
Proof.
  cbv zeta. repeat split. simpl. discriminate.
Qed.

(** C3, amended: along any sequence of dispatched actions from the initial
    cart, whether they come from components or from the thunks, [changed]
    is true exactly when some [addItem], or some [removeItem] of an id
    then in the cart, was dispatched at any earlier point.  Nothing clears
    it: the actions dispatched by [sendCartData] and by [fetchcartData],
    whatever the network answers, and [replaceCart] leave it as it is. *)
Theorem changed_iff_mutated_since_start
    (acts : list Action) (state cart : CartState)
    (net : Request -> Exn + Response) (payload : CartPayload) :
  (changed (dispatch_all CartSlice.initialState acts) = true <->
   exists before a after,
     acts = (before ++ a :: after)%list /\
     mutates (dispatch_all CartSlice.initialState before) a = true) /\
  changed (dispatch_all state
             (dispatched_of (trace net (CartActions.sendCartData cart))))
    = changed state /\
  changed (dispatch_all state
             (dispatched_of (trace net CartActions.fetchcartData)))
    = changed state /\
  changed (CartSlice.replaceCart state payload) = changed state.
Proof.
  split; [|split; [|split]].
  - rewrite changed_after_all. simpl. apply ever_mutates_somewhere.
  - rewrite sendCartData_trace. reflexivity.
  - rewrite fetchcartData_trace.
    destruct (net _) as [e|[[] [e|[|data_items data_totalQuantity]]]];
      reflexivity.
  - reflexivity.
Qed.

(** ** The synchronizer's notifications *)

(** C8: when the read fails ([fetch] rejects, or the response is not ok),
    [fetchcartData] issues its one request and dispatches exactly one
    action, a notification of status [error]; it dispatches no [pending]
    notification and no cart action, so the cart stays as it was, the
    initial cart at startup. *)
Theorem fetch_failure_notifies_error_only
    (net : Request -> Exn + Response) (state : CartState)
    (Hfail : call_succeeded (net (GET CartActions.cart_url)) = false) :
  let tr := trace net CartActions.fetchcartData in
  dispatched_of tr = [ShowNotification CartActions.fetch_failed] /\
  status CartActions.fetch_failed = error /\
  message CartActions.fetch_failed = "Fetching cart data failed❌⚠️" /\
  filter is_cart_action (dispatched_of tr) = [] /\
  dispatch_all state (dispatched_of tr) = state /\
  dispatch_all CartSlice.initialState (dispatched_of tr)
    = CartSlice.initialState.
Proof.
  cbv zeta. rewrite fetchcartData_trace.
  destruct (net _) as [e|[[] body]]; simpl in *;
    try discriminate; repeat split.
Qed.

Lemma fetch_failure_notifies_error_only_witness :
  let net := fun _ : Request =>
    inr {| ok := false; json := inl SyntaxError |} in
  call_succeeded (net (GET CartActions.cart_url)) = false /\
  dispatched_of (trace net CartActions.fetchcartData)
    = [ShowNotification CartActions.fetch_failed] /\
  dispatch_all cart_with_product1
    (dispatched_of (trace net CartActions.fetchcartData))
    = cart_with_product1.
Proof.
  cbv zeta.
  split; [reflexivity|].
  destruct (fetch_failure_notifies_error_only
              (fun _ => inr {| ok := false; json := inl SyntaxError |})
              cart_with_product1 eq_refl)
    as (Hd & _ & _ & _ & Hs & _).
  split; [exact Hd | exact Hs].
Defined.

(** C9: for every cart and every answer of the network, [sendCartData]
    dispatches the [pending] notification, then issues one PUT carrying
    [{items, totalQuantity}] of the cart, then dispatches one more
    notification and stops; that notification is [success] exactly when
    the write succeeded and [error] exactly when it failed.  One request is
    made in either case. *)
Theorem sendCartData_protocol
    (net : Request -> Exn + Response) (cart : CartState) :
  let rq := PUT CartActions.cart_url
              {| payload_items := items cart;
                 payload_totalQuantity := totalQuantity cart |} in
  let tr := trace net (CartActions.sendCartData cart) in
  exists first last,
    tr = [Dispatched (ShowNotification first);
          Requested rq;
          Dispatched (ShowNotification last)] /\
    status first = pending /\
    (status last = success <-> call_succeeded (net rq) = true) /\
    (status last = error <-> call_succeeded (net rq) = false) /\
    requests_of tr = [rq].
Proof.
  cbv zeta. rewrite sendCartData_trace.
  exists CartActions.sending.
  eexists. split; [reflexivity|].
  split; [reflexivity|].
  destruct (call_succeeded _); simpl; repeat split;
    try discriminate; reflexivity.
Qed.

(** ** The scenarios, evaluated *)

Example scenario_second_add :
  CartSlice.addItem (CartSlice.addItem CartSlice.initialState product1)
    product1 =
  {| items := [{| id := "p1"; price := 6; quantity := 2; totalPrice := 12;
                  name := "Product 1" |}];
     totalQuantity := 2; changed := true |}.
Proof. reflexivity. Qed.

Example scenario_remove_one_of_two :
  apply_edits CartSlice.initialState
    [EditAdd product1; EditAdd product1; EditRemove "p1"] =
  {| items := [product1_line]; totalQuantity := 1; changed := true |}.
Proof. reflexivity. Qed.

Example scenario_remove_last :
  apply_edits CartSlice.initialState
    [EditAdd product1; EditAdd product1; EditRemove "p1"; EditRemove "p1"] =
  {| items := []; totalQuantity := 0; changed := true |}.
Proof. reflexivity. Qed.

Example scenario_fetch_of_empty_store :
  trace (fun _ => inr {| ok := true; json := inr DataNull |})
    CartActions.fetchcartData =
  [Requested (GET CartActions.cart_url);
   Dispatched (ShowNotification CartActions.fetch_failed)].
Proof. reflexivity. Qed.

Example scenario_fetch_without_items :
  dispatch_all CartSlice.initialState
    (dispatched_of
       (trace (fun _ => inr {| ok := true;
                               json := inr (DataObject None 0) |})
          CartActions.fetchcartData)) =
  CartSlice.initialState.
Proof. reflexivity. Qed.

Example scenario_first_effect_is_skipped :
  App.syncEffect true cart_with_product1 = (false, None).
Proof. reflexivity. Qed.

(** * Further properties of the code *)

(** ** [removeItem] of an id the cart holds *)

Lemma find_after_filter_out (x : string) (arr : list CartLine) :
  find (id_is x) (filter (id_is_not x) arr) = None.
Proof.
  apply find_misses, Forall_forall. intros l Hl.
  apply filter_In in Hl. destruct Hl as [_ Hl].
  now apply id_is_not_true.
Qed.

Lemma absent_forall (x : string) (arr : list CartLine) :
  (forall l, In l arr -> id l <> x) ->
  Forall (fun l => id_is x l = false) arr.
Proof.
  intros H. apply Forall_forall. intros l Hl.
  apply id_is_false. now apply H.
Qed.

(** X1: when [e] is the first line of id [itemId], [removeItem] takes 1
    from [totalQuantity] and sets [changed]; if [e] has quantity 1, every
    line of that id is dropped, those after [e] too, and the other lines
    stay in order; otherwise [e] alone loses 1 of its quantity and its own
    stored price of its [totalPrice]. *)
Theorem removeItem_present_effect
    (state : CartState) (itemId : string)
    (before after : list CartLine) (e : CartLine)
    (Hs : items state = (before ++ e :: after)%list)
    (Hb : forall l, In l before -> id l <> itemId)
    (He : id e = itemId) :
  let state' := CartSlice.removeItem state itemId in
  totalQuantity state' = totalQuantity state - 1 /\
  changed state' = true /\
  (quantity e = 1 ->
   items state' = (before ++ filter (id_is_not itemId) after)%list /\
   forall l, In l (items state') -> id l <> itemId) /\
  (quantity e <> 1 ->
   items state' =
     (before ++ {| id := id e; price := price e;
                   quantity := quantity e - 1;
                   totalPrice := totalPrice e - price e;
                   name := name e |} :: after)%list).
Proof.
  apply absent_forall in Hb. apply id_is_true in He.
  cbv zeta. unfold CartSlice.removeItem.
  rewrite Hs, (find_skips _ _ _ _ Hb He).
  destruct (Z.eqb_spec (quantity e) 1) as [Hone|Hmore]; simpl.
  - split; [reflexivity|]. split; [reflexivity|].
    split; [|intros; contradiction]. intros _.
    assert (Hitems : filter (id_is_not itemId) (before ++ e :: after) =
                     (before ++ filter (id_is_not itemId) after)%list).
    { rewrite filter_app. simpl.
      unfold id_is_not at 2. fold (id_is itemId e). rewrite He. simpl.
      rewrite filter_keeps; [reflexivity|].
      eapply Forall_impl; [|exact Hb]. intros l. apply id_is_not_true. }
    split; [exact Hitems|].
    intros l Hl.
    apply filter_In in Hl. destruct Hl as [_ Hl].
    now apply id_is_false, id_is_not_true.
  - split; [reflexivity|]. split; [reflexivity|].
    split; [intros; contradiction|]. intros _.
    now rewrite (modify_found_at _ _ _ _ _ Hb He).
Qed.

Lemma removeItem_present_effect_witness :
  items cart_with_both = ([product1_line] ++ product2_line :: [])%list /\
  totalQuantity (CartSlice.removeItem cart_with_both "p2") = 2 /\
  items (CartSlice.removeItem cart_with_both "p2") =
    [product1_line;
     {| id := "p2"; price := 10; quantity := 1; totalPrice := 10;
        name := "Product 2" |}].
Proof.
  split; [reflexivity|].
  assert (Hb : forall l, In l [product1_line] -> id l <> "p2").
  { intros l [<-|[]]. discriminate. }
  destruct (removeItem_present_effect cart_with_both "p2"
              [product1_line] [] product2_line eq_refl Hb eq_refl)
    as (Ht & _ & _ & Hmore).
  split; [exact Ht|].
  apply Hmore. discriminate.
Defined.

(** ** Invariants along edits *)

Lemma apply_edits_keeps_well_formed (state : CartState) (es : list CartEdit) :
  well_formed state -> well_formed (apply_edits state es).
Proof.
  intros Hwf. induction es as [|e es IH] using rev_ind.
  - exact Hwf.
  - rewrite apply_edits_snoc. destruct e; simpl.
    + now apply addItem_well_formed.
    + now apply removeItem_well_formed.
Qed.

(** X2: from any cart whose ids are unique, whose quantities are all at
    least 1 and whose [totalQuantity] is the sum of them (the initial cart,
    or such a cart installed by [replaceCart]), every sequence of
    [addItem]/[removeItem] gives a cart of the same kind: no duplicate
    id, no line of quantity 0, [totalQuantity] still the sum. *)
Theorem edits_keep_unique_positive_lines
    (state : CartState) (es : list CartEdit)
    (Hunique : NoDup (map id (items state)))
    (Hpositive : Forall (fun l => 1 <= quantity l) (items state))
    (Htotal : totalQuantity state = sum_quantity (items state)) :
  let state' := apply_edits state es in
  NoDup (map id (items state')) /\
  Forall (fun l => 1 <= quantity l) (items state') /\
  totalQuantity state' = sum_quantity (items state').
Proof.
  destruct (apply_edits_keeps_well_formed state es) as [Hu Hp Ht].
  - now split.
  - cbv zeta. auto.
Qed.

Lemma edits_keep_unique_positive_lines_witness :
  let es := [EditAdd product1; EditRemove "p2"; EditAdd product2] in
  NoDup (map id (items cart_with_both)) /\
  Forall (fun l => 1 <= quantity l) (items (apply_edits cart_with_both es)) /\
  totalQuantity (apply_edits cart_with_both es) = 4.
Proof.
  cbv zeta.
  assert (Hu : NoDup (map id (items cart_with_both))).
  { simpl. constructor.
    - intros [H|[]]. discriminate.
    - constructor; [intros [] | constructor]. }
  assert (Hp : Forall (fun l => 1 <= quantity l) (items cart_with_both)).
  { repeat constructor; simpl; lia. }
  split; [exact Hu|].
  destruct (edits_keep_unique_positive_lines cart_with_both
              [EditAdd product1; EditRemove "p2"; EditAdd product2]
              Hu Hp eq_refl) as (_ & Hp' & _).
  split; [exact Hp' | reflexivity].
Defined.





Lemma length_le_sum_quantity (arr : list CartLine) :
  Forall (fun l => 1 <= quantity l) arr ->
  Z.of_nat (List.length arr) <= sum_quantity arr.
Proof.
  induction 1 as [|l rest Hl _ IH]; [cbn; lia|].
  rewrite sum_quantity_cons. simpl List.length. lia.
Qed.

Lemma totalQuantity_step (state : CartState) (e : CartEdit) :
  totalQuantity (cartReducer state (edit_action e)) <=
  totalQuantity state + count_adds [e].
Proof.
  destruct e as [item|itemId]; simpl.
  - unfold CartSlice.addItem. destruct (find _ _); simpl; lia.
  - unfold CartSlice.removeItem. destruct (find _ _) as [e|]; [|lia].
    destruct (quantity e =? 1)%Z; simpl; lia.
Qed.

Lemma count_adds_app (es fs : list CartEdit) :
  count_adds (es ++ fs) = count_adds es + count_adds fs.
Proof.
  induction es as [|[item|itemId] es IH]; cbn [count_adds app]; lia.
Qed.

(** X4: after any sequence of edits from the initial cart, the cart has
    at most [totalQuantity] lines, and [totalQuantity] is at most the
    number of [addItem] actions of the sequence. *)
Theorem lines_le_total_le_adds (es : list CartEdit) :
  let state := apply_edits CartSlice.initialState es in
  Z.of_nat (List.length (items state)) <= totalQuantity state /\
  totalQuantity state <= count_adds es.
Proof.
  cbv zeta. split.
  - destruct (apply_edits_well_formed es) as [_ Hp Ht].
    rewrite Ht. now apply length_le_sum_quantity.
  - induction es as [|e es IH] using rev_ind; [cbn; lia|].
    rewrite apply_edits_snoc, count_adds_app.
    pose proof (totalQuantity_step
                  (apply_edits CartSlice.initialState es) e).
    lia.
Qed.

(** ** The buttons of a cart item *)

(** X5: pressing + and then - on a cart item whose id is in the cart and
    whose line does not have quantity 0 gives back the former
    [totalQuantity] and the former [items] but for one field: the
    [totalPrice] of the line found is
    [(totalPrice + props.price) - line.price], computed in doubles, which
    need not be the former [totalPrice] even when the two prices are the
    same. *)
Theorem plus_then_minus_restores_but_totalPrice
    (state : CartState) (props : CartItem.Props) (e : CartLine)
    (Hfound : find (id_is (CartItem.prop_id props)) (items state) = Some e)
    (Hquantity : quantity e <> 0) :
  let state' :=
    cartReducer (cartReducer state (CartItem.addItemHandler props))
      (CartItem.removeItemHandler props) in
  exists before after,
    items state = (before ++ e :: after)%list /\
    items state' =
      (before ++
       with_totalPrice e
         ((totalPrice e + CartItem.prop_price props) - price e)%float
       :: after)%list /\
    totalQuantity state' = totalQuantity state.
Proof.
  destruct (find_splits _ _ _ Hfound) as (before & after & Hs & Hb & He).
  exists before, after. split; [exact Hs|].
  simpl. unfold CartSlice.addItem. simpl. rewrite Hfound.
  rewrite Hs, (modify_found_at _ _ _ _ _ Hb He).
  unfold CartSlice.removeItem. simpl.
  rewrite find_skips; [|exact Hb|exact He]. simpl.
  destruct (Z.eqb_spec (quantity e + 1) 1) as [Hone|_]; [lia|]. simpl.
  rewrite modify_found_at; [|exact Hb|exact He]. simpl.
  split; [|lia]. f_equal. f_equal.
  unfold with_totalPrice. f_equal. lia.
Qed.

Lemma plus_then_minus_restores_but_totalPrice_witness :
  find (id_is (CartItem.prop_id tenth_props)) (items cart_with_two_tenths)
    = Some two_tenths_line /\
  quantity two_tenths_line <> 0 /\
  exists before after,
    items cart_with_two_tenths = (before ++ two_tenths_line :: after)%list /\
    items (cartReducer
             (cartReducer cart_with_two_tenths
                (CartItem.addItemHandler tenth_props))
             (CartItem.removeItemHandler tenth_props)) =
      (before ++
       with_totalPrice two_tenths_line
         ((totalPrice two_tenths_line + CartItem.prop_price tenth_props)
          - price two_tenths_line)%float
       :: after)%list /\
    totalQuantity (cartReducer
                     (cartReducer cart_with_two_tenths
                        (CartItem.addItemHandler tenth_props))
                     (CartItem.removeItemHandler tenth_props)) =
      totalQuantity cart_with_two_tenths.
Proof.
  assert (Hq : quantity two_tenths_line <> 0) by discriminate.
  split; [reflexivity|]. split; [exact Hq|].
  exact (plus_then_minus_restores_but_totalPrice cart_with_two_tenths
           tenth_props two_tenths_line eq_refl Hq).
Defined.

(** On that cart the line does not come back as it was: [totalPrice] was
    0.2 and is 0.20000000000000004 after + and -. *)
Example plus_then_minus_on_two_tenths :
  items cart_with_two_tenths = [two_tenths_line] /\
  items (cartReducer
           (cartReducer cart_with_two_tenths
              (CartItem.addItemHandler tenth_props))
           (CartItem.removeItemHandler tenth_props)) =
    [with_totalPrice two_tenths_line 0x1.999999999999bp-3] /\
  PrimFloat.eqb 0x1.999999999999bp-3 (totalPrice two_tenths_line) = false.
Proof. repeat split. Qed.

(** X6: pressing - and then + on a cart item whose id is in the cart and
    whose line has a quantity other than 1 gives back the former
    [totalQuantity] and the former [items] but for one field: the
    [totalPrice] of the line found is
    [(totalPrice - line.price) + props.price], computed in doubles, which
    need not be the former [totalPrice] even when the two prices are the
    same. *)
Theorem minus_then_plus_restores_but_totalPrice
    (state : CartState) (props : CartItem.Props) (e : CartLine)
    (Hfound : find (id_is (CartItem.prop_id props)) (items state) = Some e)
    (Hquantity : quantity e <> 1) :
  let state' :=
    cartReducer (cartReducer state (CartItem.removeItemHandler props))
      (CartItem.addItemHandler props) in
  exists before after,
    items state = (before ++ e :: after)%list /\
    items state' =
      (before ++
       with_totalPrice e
         ((totalPrice e - price e) + CartItem.prop_price props)%float
       :: after)%list /\
    totalQuantity state' = totalQuantity state.
Proof.
  destruct (find_splits _ _ _ Hfound) as (before & after & Hs & Hb & He).
  exists before, after. split; [exact Hs|].
  simpl. unfold CartSlice.removeItem. rewrite Hfound.
  destruct (Z.eqb_spec (quantity e) 1) as [Hone|_]; [contradiction|].
  rewrite Hs, (modify_found_at _ _ _ _ _ Hb He).
  unfold CartSlice.addItem. simpl.
  rewrite find_skips; [|exact Hb|exact He]. simpl.
  rewrite modify_found_at; [|exact Hb|exact He]. simpl.
  split; [|lia]. f_equal. f_equal.
  unfold with_totalPrice. f_equal. lia.
Qed.

Lemma minus_then_plus_restores_but_totalPrice_witness :
  find (id_is (CartItem.prop_id three_hundredths_props))
    (items cart_with_three_hundredths) = Some three_hundredths_line /\
  quantity three_hundredths_line <> 1 /\
  exists before after,
    items cart_with_three_hundredths =
      (before ++ three_hundredths_line :: after)%list /\
    items (cartReducer
             (cartReducer cart_with_three_hundredths
                (CartItem.removeItemHandler three_hundredths_props))
             (CartItem.addItemHandler three_hundredths_props)) =
      (before ++
       with_totalPrice three_hundredths_line
         ((totalPrice three_hundredths_line - price three_hundredths_line)
          + CartItem.prop_price three_hundredths_props)%float
       :: after)%list /\
    totalQuantity (cartReducer
                     (cartReducer cart_with_three_hundredths
                        (CartItem.removeItemHandler three_hundredths_props))
                     (CartItem.addItemHandler three_hundredths_props)) =
      totalQuantity cart_with_three_hundredths.
Proof.
  assert (Hq : quantity three_hundredths_line <> 1) by discriminate.
  split; [reflexivity|]. split; [exact Hq|].
  exact (minus_then_plus_restores_but_totalPrice cart_with_three_hundredths
           three_hundredths_props three_hundredths_line eq_refl Hq).
Defined.

(** On that cart, whose line is consistent, [totalPrice] was 0.3 and is
    0.30000000000000004 after - and +. *)
Example minus_then_plus_on_three_hundredths :
  line_consistent three_hundredths_line /\
  items (cartReducer
           (cartReducer cart_with_three_hundredths
              (CartItem.removeItemHandler three_hundredths_props))
           (CartItem.addItemHandler three_hundredths_props)) =
    [with_totalPrice three_hundredths_line 0x1.3333333333334p-2] /\
  PrimFloat.eqb 0x1.3333333333334p-2 (totalPrice three_hundredths_line)
    = false.
Proof. repeat split. Qed.

(** X7: pressing - and then + on a cart item whose line has quantity 1
    does not put the line back where it was: every line of that id is
    dropped and a new line of quantity 1, with the title and the price of
    the props, is appended at the end; [totalQuantity] is as before. *)
Theorem minus_then_plus_on_last_unit_moves_line
    (state : CartState) (props : CartItem.Props) (e : CartLine)
    (Hfound : find (id_is (CartItem.prop_id props)) (items state) = Some e)
    (Hquantity : quantity e = 1) :
  let state' :=
    cartReducer (cartReducer state (CartItem.removeItemHandler props))
      (CartItem.addItemHandler props) in
  items state' =
    (filter (id_is_not (CartItem.prop_id props)) (items state) ++
     [{| id := CartItem.prop_id props;
         price := CartItem.prop_price props;
         quantity := 1;
         totalPrice := CartItem.prop_price props;
         name := CartItem.prop_title props |}])%list /\
  totalQuantity state' = totalQuantity state.
Proof.
  cbv zeta. simpl. unfold CartSlice.removeItem. rewrite Hfound.
  rewrite Hquantity. simpl.
  unfold CartSlice.addItem. simpl.
  rewrite find_after_filter_out. simpl.
  split; [reflexivity | lia].
Qed.

Lemma minus_then_plus_on_last_unit_moves_line_witness :
  let props := product1_props in
  find (id_is (CartItem.prop_id props)) (items cart_with_both)
    = Some product1_line /\
  items (cartReducer
           (cartReducer cart_with_both (CartItem.removeItemHandler props))
           (CartItem.addItemHandler props)) = [product2_line; product1_line].
Proof.
  cbv zeta. split; [reflexivity|].
  exact (proj1 (minus_then_plus_on_last_unit_moves_line cart_with_both
                  product1_props product1_line eq_refl eq_refl)).
Defined.

(** ** The thunks and the cart *)

(** X8: whatever cart it is given, whatever the store holds meanwhile and
    whatever the network answers, [sendCartData] dispatches notifications
    only: the cart of the store is the same after as before. *)
Theorem sendCartData_leaves_cart_alone
    (net : Request -> Exn + Response) (cart state : CartState) :
  let acts := dispatched_of (trace net (CartActions.sendCartData cart)) in
  Forall (fun a => is_notification a = true) acts /\
  dispatch_all state acts = state.
Proof.
  cbv zeta. rewrite sendCartData_trace. simpl.
  split; [repeat constructor | reflexivity].
Qed.

(** X9: the dirty flag is not sent: two carts with the same [items] and
    [totalQuantity] make [sendCartData] issue the same request and the
    same notifications, whatever their [changed] fields are. *)
Theorem sendCartData_does_not_send_changed
    (net : Request -> Exn + Response)
    (lines : list CartLine) (total : Z) (flag1 flag2 : bool) :
  trace net (CartActions.sendCartData
               {| items := lines; totalQuantity := total;
                  changed := flag1 |}) =
  trace net (CartActions.sendCartData
               {| items := lines; totalQuantity := total;
                  changed := flag2 |}).
Proof. now rewrite !sendCartData_trace. Qed.

(** X11: a read that gives back what [sendCartData] wrote restores the
    cart that was sent: if the GET is answered with the [totalQuantity] of
    the body of the PUT and with its [items], or with no [items] at all
    when those were empty, then after [fetchcartData] the store has the
    [items] and [totalQuantity] of the cart sent; its [changed] field is
    the local one, not restored. *)
Theorem fetch_reads_back_what_send_wrote
    (net_write net_read : Request -> Exn + Response)
    (cart state : CartState) (body : CartPayload)
    (data_items : option (list CartLine))
    (Hwritten : requests_of (trace net_write (CartActions.sendCartData cart))
                = [PUT CartActions.cart_url body])
    (Hread : net_read (GET CartActions.cart_url) =
             inr {| ok := true;
                    json := inr (DataObject data_items
                                   (payload_totalQuantity body)) |})
    (Hitems : data_items = Some (payload_items body) \/
              (data_items = None /\ payload_items body = [])) :
  let state' :=
    dispatch_all state
      (dispatched_of (trace net_read CartActions.fetchcartData)) in
  items state' = items cart /\
  totalQuantity state' = totalQuantity cart /\
  changed state' = changed state.
Proof.
  cbv zeta. rewrite sendCartData_trace in Hwritten. simpl in Hwritten.
  injection Hwritten as <-.
  rewrite fetchcartData_trace, Hread. simpl in *.
  destruct Hitems as [-> | [-> Hempty]]; simpl; auto.
Qed.

Lemma fetch_reads_back_what_send_wrote_witness :
  let body := {| payload_items := items cart_with_both;
                 payload_totalQuantity := totalQuantity cart_with_both |} in
  let net := fun _ : Request =>
    inr {| ok := true;
           json := inr (DataObject (Some (payload_items body))
                          (payload_totalQuantity body)) |} in
  requests_of (trace net (CartActions.sendCartData cart_with_both))
    = [PUT CartActions.cart_url body] /\
  items (dispatch_all CartSlice.initialState
           (dispatched_of (trace net CartActions.fetchcartData)))
    = items cart_with_both /\
  changed (dispatch_all CartSlice.initialState
             (dispatched_of (trace net CartActions.fetchcartData)))
    = false.
Proof.
  cbv zeta. split; [reflexivity|].
  destruct (fetch_reads_back_what_send_wrote
              (fun _ => inr {| ok := true;
                               json := inr (DataObject
                                              (Some (items cart_with_both))
                                              (totalQuantity cart_with_both)) |})
              (fun _ => inr {| ok := true;
                               json := inr (DataObject
                                              (Some (items cart_with_both))
                                              (totalQuantity cart_with_both)) |})
              cart_with_both CartSlice.initialState
              {| payload_items := items cart_with_both;
                 payload_totalQuantity := totalQuantity cart_with_both |}
              (Some (items cart_with_both))
              eq_refl eq_refl (or_introl eq_refl))
    as (Hi & _ & Hc).
  split; [exact Hi | exact Hc].
Defined.

(** ** When the sync effect sends *)

(** X12: run on the cart reached from the initial state by any sequence of
    dispatched actions, the sync effect of [App] clears [isInitial], and it
    starts [sendCartData], on that very cart, exactly when this is not its
    first run and an [addItem], or a [removeItem] of an id then in the
    cart, is among the actions; otherwise it starts nothing.  A cart that
    only [replaceCart] and notifications have touched is never sent. *)
Theorem sync_effect_sends_iff_edited (isInitial : bool) (acts : list Action) :
  let cart := dispatch_all CartSlice.initialState acts in
  let edited :=
    exists before a after,
      acts = (before ++ a :: after)%list /\
      mutates (dispatch_all CartSlice.initialState before) a = true in
  fst (App.syncEffect isInitial cart) = false /\
  (isInitial = false /\ edited ->
   snd (App.syncEffect isInitial cart)
     = Some (CartActions.sendCartData cart)) /\
  (~ (isInitial = false /\ edited) ->
   snd (App.syncEffect isInitial cart) = None).
Proof.
  cbv zeta.
  pose proof (changed_after_all acts CartSlice.initialState) as Hch.
  simpl in Hch. pose proof (ever_mutates_somewhere acts CartSlice.initialState)
    as Hev.
  unfold App.syncEffect. split; [|split].
  - destruct isInitial; [reflexivity|]. now destruct (changed _).
  - intros [-> Hed]. apply Hev in Hed. rewrite Hch, Hed. reflexivity.
  - intros Hnot. destruct isInitial; [reflexivity|].
    destruct (changed _) eqn:Hc; [|reflexivity].
    exfalso. apply Hnot. split; [reflexivity|].
    apply Hev. now rewrite <- Hch.
Qed.

(** ** As many [removeItem] as [addItem] *)

Lemma with_totalPrice_same (e : CartLine) :
  with_totalPrice e (totalPrice e) = e.
Proof. now destruct e. Qed.

Lemma repeat_sandwich {A : Type} (a b : A) (n : nat) :
  (repeat a (S n) ++ repeat b (S n))%list =
  (a :: (repeat a n ++ repeat b n) ++ [b])%list.
Proof.
  simpl. f_equal. rewrite <- app_assoc. f_equal.
  exact (repeat_cons n b).
Qed.

Lemma dispatch_all_sandwich (state : CartState) (a b : Action)
    (mid : list Action) :
  dispatch_all state (a :: mid ++ [b]) =
  cartReducer (dispatch_all (cartReducer state a) mid) b.
Proof. unfold dispatch_all. simpl. now rewrite fold_left_app. Qed.

(** On a line that is there, [n] adds and [n] removes give back the cart
    but for that line's [totalPrice] and the dirty flag. *)
Lemma adds_then_removes_existing (item : ItemPayload) (n : nat) :
  forall (before after : list CartLine) (e : CartLine) (total : Z)
         (flag : bool),
    Forall (fun l => id_is (item_id item) l = false) before ->
    id_is (item_id item) e = true ->
    0 < quantity e ->
    exists (price_total : float) (flag' : bool),
      dispatch_all
        {| items := before ++ e :: after; totalQuantity := total;
           changed := flag |}
        (repeat (AddItem item) n ++ repeat (RemoveItem (item_id item)) n)
      = {| items := before ++ with_totalPrice e price_total :: after;
           totalQuantity := total; changed := flag' |}.
Proof.
  induction n as [|n IH]; intros before after e total flag Hb He Hq.
  - exists (totalPrice e), flag. simpl. now rewrite with_totalPrice_same.
  - rewrite repeat_sandwich, dispatch_all_sandwich.
    cbn [cartReducer]. unfold CartSlice.addItem at 1. cbn [items].
    rewrite (find_skips _ _ _ _ Hb He), (modify_found_at _ _ _ _ _ Hb He).
    cbn [totalQuantity].
    edestruct (IH before after
                 {| id := id e; price := price e;
                    quantity := quantity e + 1;
                    totalPrice := (totalPrice e + item_price item)%float;
                    name := name e |} (total + 1) true Hb)
      as (price_total & flag' & Hmid).
    { exact He. }
    { simpl. lia. }
    rewrite Hmid. unfold CartSlice.removeItem. cbn [items].
    assert (He' : id_is (item_id item)
                    (with_totalPrice
                       {| id := id e; price := price e;
                          quantity := quantity e + 1;
                          totalPrice := (totalPrice e + item_price item)%float;
                          name := name e |} price_total) = true)
      by exact He.
    rewrite (find_skips _ _ _ _ Hb He'). cbn [quantity with_totalPrice].
    destruct (Z.eqb_spec (quantity e + 1) 1) as [Hone|_]; [lia|].
    exists (price_total - price e)%float, true.
    rewrite (modify_found_at _ _ _ _ _ Hb He'). simpl.
    f_equal; [|lia]. f_equal. f_equal.
    unfold with_totalPrice. simpl. f_equal. lia.
Qed.

(** X14: in a state with no line of the payload's id, [n] times the same
    [addItem] followed by [n] times [removeItem] of its id gives back the
    former [items] and the former [totalQuantity], for every [n]. *)
Theorem adds_then_as_many_removes_restore
    (state : CartState) (item : ItemPayload) (n : nat)
    (Hfresh : forall l, In l (items state) -> id l <> item_id item) :
  let state' :=
    dispatch_all state
      (repeat (AddItem item) n ++ repeat (RemoveItem (item_id item)) n) in
  items state' = items state /\ totalQuantity state' = totalQuantity state.
Proof.
  cbv zeta. destruct n as [|n]; [now split|].
  pose proof (absent_forall _ _ Hfresh) as Hb.
  pose proof (find_misses _ _ Hb) as Hnone.
  rewrite repeat_sandwich, dispatch_all_sandwich.
  cbn [cartReducer]. unfold CartSlice.addItem. rewrite Hnone.
  unfold push.
  edestruct (adds_then_removes_existing item n (items state) []
               {| id := item_id item; price := item_price item;
                  quantity := 1; totalPrice := item_price item;
                  name := item_title item |}
               (totalQuantity state + 1) true Hb)
    as (price_total & flag' & Hmid).
  { apply id_is_true. reflexivity. }
  { simpl. lia. }
  rewrite Hmid. unfold CartSlice.removeItem. cbn [items].
  rewrite find_skips; [|exact Hb|apply id_is_true; reflexivity].
  simpl. split; [|lia].
  rewrite filter_app. simpl.
  unfold id_is_not at 2. simpl. rewrite String.eqb_refl. simpl.
  rewrite app_nil_r. apply filter_keeps.
  eapply Forall_impl; [|exact Hb].
  intros l. apply id_is_not_true.
Qed.

Lemma adds_then_as_many_removes_restore_witness :
  (forall l, In l (items cart_with_product1) -> id l <> item_id product2) /\
  items (dispatch_all cart_with_product1
           (repeat (AddItem product2) 3 ++
            repeat (RemoveItem (item_id product2)) 3))
    = items cart_with_product1.
Proof.
  assert (H : forall l, In l (items cart_with_product1) ->
                        id l <> item_id product2).
  { intros l [<-|[]]. discriminate. }
  split; [exact H|].
  exact (proj1 (adds_then_as_many_removes_restore
                  cart_with_product1 product2 3 H)).
Defined.
